(** * ros_gz_sim: the combined gzserver + bridge launch file

    A shallow embedding of [ros_gz_sim/launch/ros_gz_sim.launch.py].  The
    launch file is declarative: [generate_launch_description] takes no
    argument and builds one [LaunchDescription] out of eight
    [DeclareLaunchArgument] actions and two [IncludeLaunchDescription]
    actions.  The embedding keeps the objects the Python code builds
    (plain strings stay strings, substitution objects stay substitution
    objects) and the order in which it builds them. *)

From Stdlib Require Import Ascii.
From stdpp Require Import gmap strings list fin_maps.

Local Open Scope string_scope.

(** ** The launch objects the file constructs *)

(** The substitution classes imported by the launch file.  A
    [PathJoinSubstitution] receives a Python list mixing plain strings and
    substitution objects, hence the sum in its argument. *)
#[warning="-register-all"]
Inductive Substitution : Type :=
| TextSubstitution (text : string)
| LaunchConfiguration (variable_name : string)
| FindPackageShare (package : string)
| PathJoinSubstitution (substitutions : list (string + Substitution)).

(** What Python passes where the launch API accepts "some substitution":
    either a [str] or a substitution object. *)
Abbreviation SomeSubstitution := (string + Substitution)%type.
Abbreviation Str s := (@inl string Substitution s).
Abbreviation Sub s := (@inr string Substitution s).

Inductive LaunchDescriptionSource : Type :=
| PythonLaunchDescriptionSource (launch_file_path : list SomeSubstitution).

(** The two action classes the file instantiates, with the keyword
    arguments it passes. *)
Inductive Action : Type :=
| DeclareLaunchArgument
    (name : string) (default_value : option SomeSubstitution)
    (description : string)
| IncludeLaunchDescription
    (launch_description_source : LaunchDescriptionSource)
    (launch_arguments : list (string * Substitution)).

(** [LaunchDescription()] starts with no entity; [ld.add_action(a)]
    appends [a] at the end of the entity list. *)
Record LaunchDescription : Type := { entities : list Action }.

Definition new_LaunchDescription : LaunchDescription := {| entities := [] |}.

Definition add_action (ld : LaunchDescription) (action : Action)
  : LaunchDescription :=
  {| entities := (entities ld ++ [action])%list |}.

(** ** The launch file *)

Definition generate_launch_description : LaunchDescription :=
  let config_file := LaunchConfiguration "config_file" in
  let container_name := LaunchConfiguration "container_name" in
  let namespace := LaunchConfiguration "namespace" in
  let use_composition := LaunchConfiguration "use_composition" in
  let use_respawn := LaunchConfiguration "use_respawn" in
  let log_level := LaunchConfiguration "log_level" in

  let world_sdf_file := LaunchConfiguration "world_sdf_file" in
  let world_sdf_string := LaunchConfiguration "world_sdf_string" in

  let declare_config_file_cmd :=
    DeclareLaunchArgument
      "config_file" (Some (Str "")) "YAML config file" in

  let declare_container_name_cmd :=
    DeclareLaunchArgument
      "container_name"
      (Some (Str "ros_gz_container"))
      "Name of container that nodes will load in if use composition" in

  let declare_namespace_cmd :=
    DeclareLaunchArgument
      "namespace" (Some (Str "")) "Top-level namespace" in

  let declare_use_composition_cmd :=
    DeclareLaunchArgument
      "use_composition" (Some (Str "False"))
      "Use composed bringup if True" in

  let declare_use_respawn_cmd :=
    DeclareLaunchArgument
      "use_respawn"
      (Some (Str "False"))
      "Whether to respawn if a node crashes. Applied when composition is disabled." in

  let declare_log_level_cmd :=
    DeclareLaunchArgument
      "log_level" (Some (Str "info")) "log level" in

  let declare_world_sdf_file_cmd :=
    DeclareLaunchArgument
      "world_sdf_file" (Some (Sub (TextSubstitution "")))
      "Path to the SDF world file" in

  let declare_world_sdf_string_cmd :=
    DeclareLaunchArgument
      "world_sdf_string" (Some (Sub (TextSubstitution "")))
      "SDF world string" in

  let bridge_description :=
    IncludeLaunchDescription
      (PythonLaunchDescriptionSource
         [Sub (PathJoinSubstitution [Sub (FindPackageShare "ros_gz_bridge");
                                     Str "launch";
                                     Str "ros_gz_bridge.launch.py"])])
      [("config_file", config_file);
       ("container_name", container_name);
       ("namespace", namespace);
       ("use_composition", use_composition);
       ("use_respawn", use_respawn);
       ("log_level", log_level)] in

  let gzserver_description :=
    IncludeLaunchDescription
      (PythonLaunchDescriptionSource
         [Sub (PathJoinSubstitution [Sub (FindPackageShare "ros_gz_sim");
                                     Str "launch";
                                     Str "gz_server.launch.py"])])
      [("world_sdf_file", world_sdf_file);
       ("world_sdf_string", world_sdf_string);
       ("use_composition", use_composition)] in

  (* Create the launch description and populate *)
  let ld := new_LaunchDescription in

  (* Declare the launch options *)
  let ld := add_action ld declare_config_file_cmd in
  let ld := add_action ld declare_container_name_cmd in
  let ld := add_action ld declare_namespace_cmd in
  let ld := add_action ld declare_use_composition_cmd in
  let ld := add_action ld declare_use_respawn_cmd in
  let ld := add_action ld declare_log_level_cmd in
  let ld := add_action ld declare_world_sdf_file_cmd in
  let ld := add_action ld declare_world_sdf_string_cmd in
  (* Add the actions to launch all of the bridge + gzserver nodes *)
  let ld := add_action ld bridge_description in
  let ld := add_action ld gzserver_description in

  ld.

(** ** Reading a launch description *)

(** The name an action declares, if it is a declaration. *)
Definition declared_name (a : Action) : option string :=
  match a with
  | DeclareLaunchArgument name _ _ => Some name
  | IncludeLaunchDescription _ _ => None
  end.

Definition is_declaration (a : Action) : bool :=
  match a with
  | DeclareLaunchArgument _ _ _ => true
  | IncludeLaunchDescription _ _ => false
  end.

Definition is_inclusion (a : Action) : bool := negb (is_declaration a).

(** The names declared by a list of actions, in order of appearance. *)
Definition declared_names (l : list Action) : list string :=
  omap declared_name l.

(** The package an inclusion looks its launch file up in: the package of
    the [FindPackageShare] that heads the [PathJoinSubstitution] of the
    source. *)
Definition included_package (a : Action) : option string :=
  match a with
  | IncludeLaunchDescription
      (PythonLaunchDescriptionSource
         [inr (PathJoinSubstitution (inr (FindPackageShare pkg) :: _))]) _ =>
      Some pkg
  | _ => None
  end.

Definition launch_arguments_of (a : Action) : list (string * Substitution) :=
  match a with
  | IncludeLaunchDescription _ args => args
  | DeclareLaunchArgument _ _ _ => []
  end.

Definition source_of (a : Action) : option LaunchDescriptionSource :=
  match a with
  | IncludeLaunchDescription source _ => Some source
  | DeclareLaunchArgument _ _ _ => None
  end.

Definition default_value_of (a : Action) : option SomeSubstitution :=
  match a with
  | DeclareLaunchArgument _ default_value _ => default_value
  | IncludeLaunchDescription _ _ => None
  end.

(** The default a description declares for [name]: the one of the first
    declaration of that name. *)
Fixpoint declared_default (name : string) (l : list Action)
  : option SomeSubstitution :=
  match l with
  | [] => None
  | a :: rest =>
      if decide (declared_name a = Some name) then default_value_of a
      else declared_default name rest
  end.

(** The launch configurations a substitution refers to. *)
Fixpoint references (s : Substitution) : list string :=
  match s with
  | TextSubstitution _ => []
  | LaunchConfiguration variable_name => [variable_name]
  | FindPackageShare _ => []
  | PathJoinSubstitution substitutions =>
      (fix references_each (l : list SomeSubstitution) : list string :=
         match l with
         | [] => []
         | inl _ :: rest => references_each rest
         | inr sub :: rest => (references sub ++ references_each rest)%list
         end) substitutions
  end.

Definition some_references (x : SomeSubstitution) : list string :=
  match x with
  | inl _ => []
  | inr sub => references sub
  end.

(** The launch configurations an action refers to, in its source and in
    its binding. *)
Definition action_references (a : Action) : list string :=
  match a with
  | DeclareLaunchArgument _ default_value _ =>
      from_option some_references [] default_value
  | IncludeLaunchDescription (PythonLaunchDescriptionSource path) launch_arguments =>
      (flat_map some_references path
         ++ flat_map (λ kv, references kv.2) launch_arguments)%list
  end.

(** Checks, action after action, that every reference is to a name among
    [seen], the names declared so far. *)
Fixpoint declared_before (seen : list string) (l : list Action) : bool :=
  match l with
  | [] => true
  | a :: rest =>
      forallb (λ n, bool_decide (n ∈ seen)) (action_references a)
      && declared_before (seen ++ option_list (declared_name a))%list rest
  end.

(** ** The host launch runner

    The launch file only builds a description; the values of the launch
    configurations are produced later, when the launch runner visits the
    description.  The runner belongs to the [launch] and [launch_ros]
    packages, which are not part of this repository.  The definitions of
    this part describe the behaviour of the runner that the launch file
    relies on. *)

Inductive LaunchError : Type :=
| SubstitutionFailure (variable_name : string)
| PackageNotFoundError (package : string)
| MissingArgument (name : string).

(** A computation of the runner either returns or raises. *)
Inductive result (A : Type) : Type :=
| Ok (a : A)
| Raise (e : LaunchError).
Arguments Ok {A} a.
Arguments Raise {A} e.

#[export] Instance result_ret : MRet result := fun A a => Ok a.
#[export] Instance result_bind : MBind result := fun A B f r =>
  match r with
  | Ok a => f a
  | Raise e => Raise e
  end.

Definition raised {A : Type} (r : result A) : bool :=
  match r with
  | Ok _ => false
  | Raise _ => true
  end.

(** Modelled from the spec: the state of the host launch runner, which
    is not part of this repository.  [launch_configurations] holds the
    string value of every launch configuration set so far, starting with
    the overrides supplied from the runner's external interface (§6);
    [package_shares] is the package-share lookup of §4.2 and the glossary,
    from the name of an installed package to its share directory. *)
Record LaunchContext : Type := {
  launch_configurations : gmap string string;
  package_shares : gmap string string
}.

Definition set_launch_configuration
    (name value : string) (context : LaunchContext) : LaunchContext :=
  {| launch_configurations := <[name := value]> (launch_configurations context);
     package_shares := package_shares context |}.

Fixpoint endswith_sep (s : string) : bool :=
  match s with
  | EmptyString => false
  | String c EmptyString => bool_decide (c = "/"%char)
  | String _ rest => endswith_sep rest
  end.

Definition startswith_sep (s : string) : bool :=
  match s with
  | String c _ => bool_decide (c = "/"%char)
  | EmptyString => false
  end.

(** Modelled from the spec: the path join applied by
    [PathJoinSubstitution], which lives in the [launch] package and the
    Python library.  It follows POSIX [os.path.join]: a component that
    starts with the separator restarts the path, otherwise components are
    joined by one separator. *)
Definition join_component (path b : string) : string :=
  if startswith_sep b then b
  else if bool_decide (path = "") || endswith_sep path then path +:+ b
  else path +:+ "/" +:+ b.

Definition path_join (components : list string) : string :=
  match components with
  | [] => ""
  | a :: p => foldl join_component a p
  end.

(** Modelled from the spec: resolution of a substitution by the host
    runner, which is not part of this repository.  A Configuration
    Reference is "a deferred lookup of a Launch Argument's resolved value
    at execution time" (§3); a text substitution resolves to its text; a
    package-share lookup resolves to the share directory of an installed
    package and fails for an unresolvable package name (§7). *)
Fixpoint perform (context : LaunchContext) (s : Substitution) : result string :=
  match s with
  | TextSubstitution text => Ok text
  | LaunchConfiguration variable_name =>
      match launch_configurations context !! variable_name with
      | Some value => Ok value
      | None => Raise (SubstitutionFailure variable_name)
      end
  | FindPackageShare package =>
      match package_shares context !! package with
      | Some share => Ok share
      | None => Raise (PackageNotFoundError package)
      end
  | PathJoinSubstitution substitutions =>
      components ←
        (fix perform_each (l : list SomeSubstitution) : result (list string) :=
           match l with
           | [] => Ok []
           | x :: rest =>
               v ← match x with
                   | inl text => Ok text
                   | inr sub => perform context sub
                   end;
               vs ← perform_each rest;
               Ok (v :: vs)
           end) substitutions;
      Ok (path_join components)
  end.

(** Modelled from the spec: the runner's normalisation of "some
    substitution" (the [launch] package, not part of this repository):
    a plain string stands for the text substitution of that string. *)
Definition normalize_to_list_of_substitutions
    (subs : list SomeSubstitution) : list Substitution :=
  map (fun x => match x with
                | inl text => TextSubstitution text
                | inr sub => sub
                end) subs.

(** Modelled from the spec: a list of substitutions resolves to the
    concatenation of the resolved parts (the [launch] package, not part
    of this repository). *)
Fixpoint perform_substitutions
    (context : LaunchContext) (subs : list Substitution) : result string :=
  match subs with
  | [] => Ok ""
  | s :: rest =>
      v ← perform context s;
      vs ← perform_substitutions context rest;
      Ok (v +:+ vs)
  end.

(** What the runner is asked to include: the resolved location of the
    nested launch file and the resolved value forwarded for each
    parameter, in the order of the binding. *)
Record Inclusion : Type := {
  location : string;
  forwarded : list (string * string)
}.

(** Modelled from the spec: forwarding of an inclusion binding by the
    host runner (not part of this repository).  Each entry resolves its
    Configuration Reference in the current state and sets the launch
    configuration of that name for the included description. *)
Fixpoint forward_arguments
    (context : LaunchContext) (launch_arguments : list (string * Substitution))
  : result (LaunchContext * list (string * string)) :=
  match launch_arguments with
  | [] => Ok (context, [])
  | (name, value) :: rest =>
      v ← perform context value;
      '(context', vs) ← forward_arguments (set_launch_configuration name v context) rest;
      Ok (context', (name, v) :: vs)
  end.

(** Modelled from the spec: execution of one action by the host runner
    (not part of this repository).  A declaration keeps a value supplied
    from outside and otherwise registers its resolved default (§4.1, §6);
    an inclusion resolves its location, which fails for an unresolvable
    package (§7), and forwards its binding (§4.2, §4.3).  The included
    descriptions themselves are opaque (§1) and are not run. *)
Definition execute (context : LaunchContext) (action : Action)
  : result (LaunchContext * list Inclusion) :=
  match action with
  | DeclareLaunchArgument name default_value _ =>
      match launch_configurations context !! name with
      | Some _ => Ok (context, [])
      | None =>
          match default_value with
          | None => Raise (MissingArgument name)
          | Some d =>
              v ← perform_substitutions context
                    (normalize_to_list_of_substitutions [d]);
              Ok (set_launch_configuration name v context, [])
          end
      end
  | IncludeLaunchDescription (PythonLaunchDescriptionSource path) launch_arguments =>
      loc ← perform_substitutions context
              (normalize_to_list_of_substitutions path);
      '(context', vs) ← forward_arguments context launch_arguments;
      Ok (context', [ {| location := loc; forwarded := vs |} ])
  end.

(** Modelled from the spec: the runner visits the actions of a
    description in order (§4.4); the first failure aborts the whole
    invocation (§7). *)
Fixpoint visit (context : LaunchContext) (actions : list Action)
  : result (LaunchContext * list Inclusion) :=
  match actions with
  | [] => Ok (context, [])
  | a :: rest =>
      '(context', incs) ← execute context a;
      '(context'', incs') ← visit context' rest;
      Ok (context'', (incs ++ incs')%list)
  end.

(** One invocation of the launch file: the description is built, then
    visited in a state holding the caller's overrides. *)
Definition launch (overrides packages : gmap string string)
  : result (LaunchContext * list Inclusion) :=
  visit {| launch_configurations := overrides; package_shares := packages |}
        (entities generate_launch_description).

Definition inclusions_of
    (r : result (LaunchContext * list Inclusion)) : list Inclusion :=
  match r with
  | Ok (_, incs) => incs
  | Raise _ => []
  end.

(** The value bound to [name] in an inclusion binding, be it the binding
    the launch file writes or the resolved binding the runner forwards. *)
Fixpoint binding {V : Type} (name : string) (l : list (string * V)) : option V :=
  match l with
  | [] => None
  | (k, v) :: rest => if decide (k = name) then Some v else binding name rest
  end.

(** The [i]-th inclusion an invocation requests, and the value it forwards
    for [name]. *)
Definition forwarded_value
    (r : result (LaunchContext * list Inclusion)) (i : nat) (name : string)
  : option string :=
  inc ← inclusions_of r !! i; binding name (forwarded inc).

(** Positions of the two inclusions among the requested inclusions. *)
Definition bridge : nat := 0.
Definition gzserver : nat := 1.

(** ** The specification's tables *)

(** The default column of the invocation surface (§6 of the
    specification). *)
Definition default_values : gmap string string :=
  {[ "config_file" := "";
     "container_name" := "ros_gz_container";
     "namespace" := "";
     "use_composition" := "False";
     "use_respawn" := "False";
     "log_level" := "info";
     "world_sdf_file" := "";
     "world_sdf_string" := "" ]}.

(** The value an argument takes in an invocation: the caller's override
    when there is one, the default otherwise. *)
Definition value_of (overrides : gmap string string) (name dflt : string)
  : string :=
  default dflt (overrides !! name).

(** A Configuration Reference to the argument of the same name. *)
Definition reference (name : string) : string * Substitution :=
  (name, LaunchConfiguration name).

(** The names each binding forwards (§3 of the specification). *)
Definition bridge_names : list string :=
  ["config_file"; "container_name"; "namespace"; "use_composition";
   "use_respawn"; "log_level"].

Definition gzserver_names : list string :=
  ["world_sdf_file"; "world_sdf_string"; "use_composition"].

(** The two inclusions as §4.2 and §4.3 of the specification describe
    them: a package-share lookup joined with a relative path, and one
    Configuration Reference per forwarded name. *)
Definition bridge_inclusion : Action :=
  IncludeLaunchDescription
    (PythonLaunchDescriptionSource
       [Sub (PathJoinSubstitution [Sub (FindPackageShare "ros_gz_bridge");
                                   Str "launch";
                                   Str "ros_gz_bridge.launch.py"])])
    (map reference bridge_names).

Definition gzserver_inclusion : Action :=
  IncludeLaunchDescription
    (PythonLaunchDescriptionSource
       [Sub (PathJoinSubstitution [Sub (FindPackageShare "ros_gz_sim");
                                   Str "launch";
                                   Str "gz_server.launch.py"])])
    (map reference gzserver_names).

(** ** Observations of the returned description and of an invocation *)

(** The action at a position of the returned description, and the
    reference its binding gives to a name. *)
Definition action_at (i : nat) : option Action :=
  entities generate_launch_description !! i.

Definition reference_at (i : nat) (name : string) : option Substitution :=
  a ← action_at i; binding name (launch_arguments_of a).

(** The resolved default of each declaration of a description, in order. *)
Definition resolved_defaults (context : LaunchContext) (l : list Action)
  : list (string * result string) :=
  omap (λ a, match a with
             | DeclareLaunchArgument name (Some d) _ =>
                 Some (name, perform_substitutions context
                               (normalize_to_list_of_substitutions [d]))
             | _ => None
             end) l.

(** The default the launch file declares for [name], as the runner
    resolves it. *)
Definition effective_default (context : LaunchContext) (name : string)
  : option (result string) :=
  d ← declared_default name (entities generate_launch_description);
  Some (perform_substitutions context (normalize_to_list_of_substitutions [d])).

(** The path a launch description source spells out, when it is made of
    literal text only; [None] as soon as part of it has to be looked up. *)
Fixpoint literal_path (path : list SomeSubstitution) : option string :=
  match path with
  | [] => Some ""
  | inl text :: rest => String.append text <$> literal_path rest
  | inr (TextSubstitution text) :: rest =>
      String.append text <$> literal_path rest
  | inr _ :: _ => None
  end.

Definition literal_source (source : LaunchDescriptionSource) : option string :=
  match source with
  | PythonLaunchDescriptionSource path => literal_path path
  end.

(** Two sets of overrides that agree on every argument but [name]. *)
Definition differ_only_at (name : string) (o1 o2 : gmap string string) : Prop :=
  ∀ k, k ≠ name → o1 !! k = o2 !! k.

(** ** Sample invocations *)

(** A package index with both packages installed. *)
Definition installed : gmap string string :=
  {[ "ros_gz_bridge" := "/opt/ros/share/ros_gz_bridge";
     "ros_gz_sim" := "/opt/ros/share/ros_gz_sim" ]}.

(** The overrides of the example of §8. *)
Definition robot1_overrides : gmap string string :=
  {[ "namespace" := "robot1"; "use_composition" := "True" ]}.

(** Only the world file is supplied. *)
Definition world_file_overrides : gmap string string :=
  {[ "world_sdf_file" := "empty.sdf" ]}.

(** Values that a validating launch file would reject: strings that are
    not booleans, and both world sources at once. *)
Definition unchecked_overrides : gmap string string :=
  {[ "use_composition" := "maybe"; "use_respawn" := "2";
     "world_sdf_file" := "empty.sdf"; "world_sdf_string" := "<sdf/>" ]}.

(** ** Further observations of an invocation *)

(** The value of the launch configuration [name] once the runner has
    visited the whole description; [None] when the invocation failed or
    the configuration is not set. *)
Definition configuration_after
    (r : result (LaunchContext * list Inclusion)) (name : string)
  : option string :=
  match r with
  | Ok (context, _) => launch_configurations context !! name
  | Raise _ => None
  end.

(** [relative] placed under the directory [share], with one separator
    between them unless [share] is empty or already ends with one. *)
Definition under_share (share relative : string) : string :=
  if bool_decide (share = "") || endswith_sep share
  then share +:+ relative
  else share +:+ "/" +:+ relative.

(** An override for a name the launch file does not declare. *)
Definition stray_overrides : gmap string string :=
  {[ "verbose" := "true" ]}.

(** One default of the table, supplied by the caller. *)
Definition explicit_log_level : gmap string string :=
  {[ "log_level" := "info" ]}.

(** A package index in which only the bridge is installed. *)
Definition bridge_only : gmap string string :=
  {[ "ros_gz_bridge" := "/opt/ros/share/ros_gz_bridge" ]}.

(** * Properties *)

(** ** The runner on declarations and inclusions *)

Lemma append_empty_r (s : string) : s +:+ "" = s.
Proof.
  induction s as [|c s IH]; [done|].
  change (String c (s +:+ "") = String c s). by rewrite IH.
Qed.

Lemma union_singleton_present (m : gmap string string) (name v w : string) :
  m !! name = Some w → m ∪ {[name := v]} = m.
Proof.
  intros Hm. apply map_eq; intros k. rewrite lookup_union.
  destruct (decide (k = name)) as [->|Hne].
  - by rewrite Hm, lookup_singleton_eq.
  - rewrite lookup_singleton_ne by done. by destruct (m !! k).
Qed.

(** A declaration never replaces a value that is already set and
    registers its default otherwise: the configurations become
    [m ∪ {[name := v]}]. *)
Lemma execute_declare (context : LaunchContext) (name : string)
    (d : SomeSubstitution) (description v : string) :
  perform_substitutions context (normalize_to_list_of_substitutions [d]) = Ok v →
  execute context (DeclareLaunchArgument name (Some d) description) =
    Ok ({| launch_configurations :=
             launch_configurations context ∪ {[name := v]};
           package_shares := package_shares context |}, []).
Proof.
  intros Hd. unfold execute.
  destruct (launch_configurations context !! name) as [w|] eqn:Hm.
  - rewrite (union_singleton_present _ _ _ w) by done. by destruct context.
  - rewrite Hd. simpl. unfold set_launch_configuration.
    by rewrite insert_union_singleton_r.
Qed.

Lemma visit_declare (context : LaunchContext) (name : string)
    (d : SomeSubstitution) (description : string) (rest : list Action)
    (v : string) :
  perform_substitutions context (normalize_to_list_of_substitutions [d]) = Ok v →
  visit context (DeclareLaunchArgument name (Some d) description :: rest) =
    visit {| launch_configurations :=
               launch_configurations context ∪ {[name := v]};
             package_shares := package_shares context |} rest.
Proof.
  intros Hd. cbn [visit]. rewrite (execute_declare _ _ _ _ v) by done.
  simpl. by destruct (visit _ rest) as [[? ?]|].
Qed.

(** Forwarding references to arguments that are already set resolves
    each one to its value and leaves the configurations as they are. *)
Lemma forward_references (context : LaunchContext) (names : list string) :
  Forall (λ k, is_Some (launch_configurations context !! k)) names →
  forward_arguments context (map reference names) =
    Ok (context,
        map (λ k, (k, default "" (launch_configurations context !! k))) names).
Proof.
  induction 1 as [|k names [v Hk] _ IH]; [done|].
  cbn [map reference forward_arguments perform]. rewrite Hk. simpl.
  replace (set_launch_configuration k v context) with context.
  - by rewrite IH.
  - destruct context as [m ps]; unfold set_launch_configuration; simpl in *.
    by rewrite insert_id.
Qed.

Lemma execute_include (context : LaunchContext) (package file share : string)
    (names : list string) :
  package_shares context !! package = Some share →
  Forall (λ k, is_Some (launch_configurations context !! k)) names →
  execute context
    (IncludeLaunchDescription
       (PythonLaunchDescriptionSource
          [Sub (PathJoinSubstitution
                  [Sub (FindPackageShare package); Str "launch"; Str file])])
       (map reference names)) =
    Ok (context,
        [ {| location := path_join [share; "launch"; file];
             forwarded :=
               map (λ k, (k, default "" (launch_configurations context !! k)))
                   names |} ]).
Proof.
  intros Hp Hn. unfold execute.
  cbn [normalize_to_list_of_substitutions map perform_substitutions perform].
  rewrite Hp. cbn [mbind result_bind]. rewrite append_empty_r.
  by rewrite forward_references.
Qed.

(** After the declarations, every argument has the caller's value or
    its default. *)
Lemma lookup_resolved (overrides : gmap string string) (name dflt : string) :
  default_values !! name = Some dflt →
  (overrides ∪ default_values) !! name = Some (value_of overrides name dflt).
Proof.
  intros Hd. rewrite lookup_union, Hd. unfold value_of.
  by destruct (overrides !! name).
Qed.

Lemma resolved_is_Some (overrides : gmap string string) (name : string) :
  is_Some (default_values !! name) →
  is_Some ((overrides ∪ default_values) !! name).
Proof.
  intros [d Hd]. rewrite (lookup_resolved _ _ d) by done. by eexists.
Qed.

(** Registering the eight defaults one after the other completes the
    overrides by the table of defaults. *)
Lemma declared_defaults (overrides : gmap string string) :
  overrides ∪ {["config_file" := ""]}
    ∪ {["container_name" := "ros_gz_container"]} ∪ {["namespace" := ""]}
    ∪ {["use_composition" := "False"]} ∪ {["use_respawn" := "False"]}
    ∪ {["log_level" := "info"]} ∪ {["world_sdf_file" := ""]}
    ∪ {["world_sdf_string" := ""]} = overrides ∪ default_values.
Proof.
  rewrite <- !(assoc_L (∪)). by f_equal.
Qed.

Lemma all_resolved (overrides : gmap string string) (names : list string) :
  Forall (λ k, is_Some (default_values !! k)) names →
  Forall (λ k, is_Some ((overrides ∪ default_values) !! k)) names.
Proof.
  intros Hn. eapply Forall_impl; [exact Hn|].
  intros k Hk. by apply resolved_is_Some.
Qed.

Lemma default_values_bridge :
  Forall (λ k, is_Some (default_values !! k)) bridge_names.
Proof. repeat constructor; by eexists. Qed.

Lemma default_values_gzserver :
  Forall (λ k, is_Some (default_values !! k)) gzserver_names.
Proof. repeat constructor; by eexists. Qed.

(** A binding gives a value to exactly the names it lists. *)
Lemma binding_is_Some {V : Type} (name : string) (l : list (string * V)) :
  is_Some (binding name l) ↔ name ∈ l.*1.
Proof.
  induction l as [|[k v] l IH]; simpl.
  - split; [by intros [? ?] | by intros ?%elem_of_nil].
  - rewrite elem_of_cons. case_decide as Hk.
    + split; [by left | by eexists].
    + rewrite IH. split; [by right | by intros [?|?]].
Qed.

(** Steps through the declarations at the head of a visited list: each
    one registers the default it spells out. *)
Ltac visit_declarations :=
  repeat first
    [ rewrite (visit_declare _ _ _ _ _ "") by reflexivity
    | rewrite (visit_declare _ _ _ _ _ "ros_gz_container") by reflexivity
    | rewrite (visit_declare _ _ _ _ _ "False") by reflexivity
    | rewrite (visit_declare _ _ _ _ _ "info") by reflexivity ];
  cbn [launch_configurations package_shares].

(** Side conditions of [execute_include] once the defaults are
    registered. *)
Ltac include_side_conditions :=
  first [ done
        | apply all_resolved; apply default_values_bridge
        | apply all_resolved; apply default_values_gzserver ].

(** ** One invocation of the launch file *)

Lemma visit_declarations_only (overrides packages : gmap string string) :
  visit {| launch_configurations := overrides; package_shares := packages |}
        (take 8 (entities generate_launch_description)) =
    Ok ({| launch_configurations := overrides ∪ default_values;
           package_shares := packages |}, []).
Proof.
  set (es := take 8 _). vm_compute in es. subst es.
  visit_declarations. cbn [visit]. by rewrite declared_defaults.
Qed.

(** The declarations leave the runner about to visit the two inclusions,
    with the overrides completed by the defaults. *)
Lemma launch_declarations (overrides packages : gmap string string) :
  launch overrides packages =
    visit {| launch_configurations := overrides ∪ default_values;
             package_shares := packages |}
          [bridge_inclusion; gzserver_inclusion].
Proof.
  unfold launch.
  set (es := entities generate_launch_description). vm_compute in es. subst es.
  visit_declarations. by rewrite declared_defaults.
Qed.

(** An inclusion whose package is not installed aborts the invocation,
    whatever the overrides. *)
Lemma launch_bridge_missing (overrides packages : gmap string string) :
  packages !! "ros_gz_bridge" = None →
  launch overrides packages = Raise (PackageNotFoundError "ros_gz_bridge").
Proof.
  intros Hb. rewrite launch_declarations.
  cbn [visit bridge_inclusion execute normalize_to_list_of_substitutions map
       perform_substitutions perform package_shares].
  by rewrite Hb.
Qed.

Lemma launch_gzserver_missing (overrides packages : gmap string string)
    (bridge_share : string) :
  packages !! "ros_gz_bridge" = Some bridge_share →
  packages !! "ros_gz_sim" = None →
  launch overrides packages = Raise (PackageNotFoundError "ros_gz_sim").
Proof.
  intros Hb Hs. rewrite launch_declarations.
  cbn [visit]. unfold bridge_inclusion at 1.
  rewrite (execute_include _ _ _ bridge_share) by include_side_conditions.
  cbn [mbind result_bind gzserver_inclusion execute
       normalize_to_list_of_substitutions map
       perform_substitutions perform package_shares].
  by rewrite Hs.
Qed.

(** The check of [declared_before] is sound: in a list that passes it,
    every reference of an action is to a name that was seen before the
    list or that an earlier action of the list declares. *)
Lemma declared_before_sound (seen : list string) (l : list Action) :
  declared_before seen l = true →
  ∀ i a n, l !! i = Some a → n ∈ action_references a →
    n ∈ seen ∨
    ∃ j d description,
      j < i ∧ l !! j = Some (DeclareLaunchArgument n d description).
Proof.
  revert seen. induction l as [|a0 l IH]; intros seen Hc i a n Hi Hn; [done|].
  simpl in Hc. apply andb_true_iff in Hc as [Hrefs Hrest].
  destruct i as [|i]; simpl in Hi.
  - injection Hi as ->. left.
    rewrite forallb_forall in Hrefs.
    apply list_elem_of_In, Hrefs, bool_decide_eq_true in Hn. done.
  - destruct (IH _ Hrest i a n Hi Hn) as [Hs | (j & d & descr & Hj & Hl)].
    + apply elem_of_app in Hs as [Hs|Hs]; [by left|]. right.
      destruct a0 as [name d descr|src args]; simpl in Hs.
      * apply list_elem_of_singleton in Hs as ->.
        exists 0, d, descr. split; [lia|done].
      * by apply elem_of_nil in Hs.
    + right. exists (S j), d, descr. split; [lia|done].
Qed.

Section Installed.

(** Both included packages are installed, with these share directories. *)
Context (packages : gmap string string) (bridge_share sim_share : string).
Hypothesis bridge_installed : packages !! "ros_gz_bridge" = Some bridge_share.
Hypothesis sim_installed : packages !! "ros_gz_sim" = Some sim_share.

(** The result of an invocation: the configurations are the overrides
    completed by the defaults, and two inclusions are requested, each
    with the value of every argument it forwards. *)
Lemma launch_result (overrides : gmap string string) :
  launch overrides packages =
    Ok ({| launch_configurations := overrides ∪ default_values;
           package_shares := packages |},
        [ {| location :=
               path_join [bridge_share; "launch"; "ros_gz_bridge.launch.py"];
             forwarded :=
               [("config_file", value_of overrides "config_file" "");
                ("container_name",
                 value_of overrides "container_name" "ros_gz_container");
                ("namespace", value_of overrides "namespace" "");
                ("use_composition", value_of overrides "use_composition" "False");
                ("use_respawn", value_of overrides "use_respawn" "False");
                ("log_level", value_of overrides "log_level" "info")] |};
          {| location := path_join [sim_share; "launch"; "gz_server.launch.py"];
             forwarded :=
               [("world_sdf_file", value_of overrides "world_sdf_file" "");
                ("world_sdf_string", value_of overrides "world_sdf_string" "");
                ("use_composition",
                 value_of overrides "use_composition" "False")] |} ]).
Proof.
  rewrite launch_declarations.
  cbn [visit]. unfold bridge_inclusion, gzserver_inclusion.
  rewrite (execute_include _ _ _ bridge_share) by include_side_conditions.
  cbn [mbind result_bind].
  rewrite (execute_include _ _ _ sim_share) by include_side_conditions.
  cbn [mbind result_bind mret result_ret app map bridge_names gzserver_names
       launch_configurations].
  rewrite (lookup_resolved _ "config_file" "") by reflexivity.
  rewrite (lookup_resolved _ "container_name" "ros_gz_container") by reflexivity.
  rewrite (lookup_resolved _ "namespace" "") by reflexivity.
  rewrite (lookup_resolved _ "use_composition" "False") by reflexivity.
  rewrite (lookup_resolved _ "use_respawn" "False") by reflexivity.
  rewrite (lookup_resolved _ "log_level" "info") by reflexivity.
  rewrite (lookup_resolved _ "world_sdf_file" "") by reflexivity.
  rewrite (lookup_resolved _ "world_sdf_string" "") by reflexivity.
  reflexivity.
Qed.

End Installed.

(** Whether an invocation fails does not depend on the values supplied
    for the arguments, only on the packages that are installed. *)
Lemma raised_independent_of_overrides (overrides packages : gmap string string) :
  raised (launch overrides packages) = raised (launch ∅ packages).
Proof.
  destruct (packages !! "ros_gz_bridge") as [bs|] eqn:Hb.
  - destruct (packages !! "ros_gz_sim") as [ss|] eqn:Hs.
    + by rewrite !(launch_result _ _ _ Hb Hs).
    + by rewrite !(launch_gzserver_missing _ _ _ Hb Hs).
  - by rewrite !(launch_bridge_missing _ _ Hb).
Qed.

(** ** Assembly (§4.4) *)

(** C1: the returned description has exactly ten actions: the eight
    declarations in the order config_file, container_name, namespace,
    use_composition, use_respawn, log_level, world_sdf_file,
    world_sdf_string, then the bridge inclusion, then the server
    inclusion.  The builder takes no argument, so this is the list of
    every invocation. *)
Theorem action_list_order :
  length (entities generate_launch_description) = 10 ∧
  map declared_name (entities generate_launch_description) =
    [Some "config_file"; Some "container_name"; Some "namespace";
     Some "use_composition"; Some "use_respawn"; Some "log_level";
     Some "world_sdf_file"; Some "world_sdf_string"; None; None] ∧
  map is_inclusion (entities generate_launch_description) =
    [false; false; false; false; false; false; false; false; true; true] ∧
  drop 8 (entities generate_launch_description) =
    [bridge_inclusion; gzserver_inclusion] ∧
  map included_package (drop 8 (entities generate_launch_description)) =
    [Some "ros_gz_bridge"; Some "ros_gz_sim"].
Proof. repeat split. Qed.

(** ** Argument declaration table (§4.1) *)

(** C2: the eight declarations carry the defaults of §6: whatever the
    state of the runner, the default of each declaration resolves to the
    listed string, and visiting the declarations with no override
    registers exactly the table of defaults. *)
Theorem declarations_carry_defaults :
  (∀ context,
     resolved_defaults context (entities generate_launch_description) =
       [("config_file", Ok ""); ("container_name", Ok "ros_gz_container");
        ("namespace", Ok ""); ("use_composition", Ok "False");
        ("use_respawn", Ok "False"); ("log_level", Ok "info");
        ("world_sdf_file", Ok ""); ("world_sdf_string", Ok "")]) ∧
  (∀ packages,
     visit {| launch_configurations := ∅; package_shares := packages |}
           (take 8 (entities generate_launch_description)) =
       Ok ({| launch_configurations := default_values;
              package_shares := packages |}, [])).
Proof.
  split; [done|]. intros packages.
  by rewrite visit_declarations_only, (left_id_L ∅ (∪)).
Qed.

(** ** Inclusion bindings (§4.2, §4.3) *)

(** C3: both bindings give [use_composition] the same Configuration
    Reference, and in every invocation both inclusions are forwarded the
    same string for it: the caller's value, or the default. *)
Theorem use_composition_shared
    (overrides packages : gmap string string) (bridge_share sim_share : string) :
  packages !! "ros_gz_bridge" = Some bridge_share →
  packages !! "ros_gz_sim" = Some sim_share →
  reference_at 8 "use_composition" = Some (LaunchConfiguration "use_composition") ∧
  reference_at 9 "use_composition" = reference_at 8 "use_composition" ∧
  forwarded_value (launch overrides packages) bridge "use_composition" =
    Some (value_of overrides "use_composition" "False") ∧
  forwarded_value (launch overrides packages) gzserver "use_composition" =
    forwarded_value (launch overrides packages) bridge "use_composition".
Proof.
  intros Hb Hs. rewrite (launch_result _ _ _ Hb Hs). by repeat split.
Qed.

Lemma use_composition_shared_witness :
  forwarded_value (launch robot1_overrides installed) bridge "namespace" =
    Some "robot1" ∧
  forwarded_value (launch robot1_overrides installed) bridge "use_composition" =
    Some "True" ∧
  forwarded_value (launch robot1_overrides installed) gzserver "use_composition" =
    Some "True".
Proof.
  destruct (use_composition_shared robot1_overrides installed
              "/opt/ros/share/ros_gz_bridge" "/opt/ros/share/ros_gz_sim"
              eq_refl eq_refl) as (_ & _ & Hbridge & Hserver).
  split; [vm_compute; reflexivity|].
  split; [exact Hbridge | rewrite Hserver; exact Hbridge].
Defined.

(** C4: the bridge binding forwards exactly the six names config_file,
    container_name, namespace, use_composition, use_respawn and
    log_level, each by the Configuration Reference of the same name. *)
Theorem bridge_binding :
  included_package <$> action_at 8 = Some (Some "ros_gz_bridge") ∧
  launch_arguments_of <$> action_at 8 =
    Some [("config_file", LaunchConfiguration "config_file");
          ("container_name", LaunchConfiguration "container_name");
          ("namespace", LaunchConfiguration "namespace");
          ("use_composition", LaunchConfiguration "use_composition");
          ("use_respawn", LaunchConfiguration "use_respawn");
          ("log_level", LaunchConfiguration "log_level")] ∧
  ∀ name, is_Some (reference_at 8 name) ↔ name ∈ bridge_names.
Proof.
  split; [done|]. split; [done|]. intros name.
  change (reference_at 8 name)
    with (binding name (launch_arguments_of bridge_inclusion)).
  by rewrite binding_is_Some.
Qed.

(** C5: the server binding forwards exactly the three names
    world_sdf_file, world_sdf_string and use_composition, each by the
    Configuration Reference of the same name. *)
Theorem gzserver_binding :
  included_package <$> action_at 9 = Some (Some "ros_gz_sim") ∧
  launch_arguments_of <$> action_at 9 =
    Some [("world_sdf_file", LaunchConfiguration "world_sdf_file");
          ("world_sdf_string", LaunchConfiguration "world_sdf_string");
          ("use_composition", LaunchConfiguration "use_composition")] ∧
  ∀ name, is_Some (reference_at 9 name) ↔ name ∈ gzserver_names.
Proof.
  split; [done|]. split; [done|]. intros name.
  change (reference_at 9 name)
    with (binding name (launch_arguments_of gzserver_inclusion)).
  by rewrite binding_is_Some.
Qed.

(** C6: the server is forwarded [world_sdf_file] and [world_sdf_string]
    independently: two invocations that differ only in the value supplied
    for one of them forward the same value for the other, which is the
    caller's value for it or, when there is none, the default [""]. *)
Theorem world_sources_independent
    (o1 o2 packages : gmap string string) (bridge_share sim_share : string) :
  packages !! "ros_gz_bridge" = Some bridge_share →
  packages !! "ros_gz_sim" = Some sim_share →
  (differ_only_at "world_sdf_file" o1 o2 →
   forwarded_value (launch o1 packages) gzserver "world_sdf_string" =
     forwarded_value (launch o2 packages) gzserver "world_sdf_string") ∧
  (differ_only_at "world_sdf_string" o1 o2 →
   forwarded_value (launch o1 packages) gzserver "world_sdf_file" =
     forwarded_value (launch o2 packages) gzserver "world_sdf_file") ∧
  forwarded_value (launch o1 packages) gzserver "world_sdf_string" =
    Some (default "" (o1 !! "world_sdf_string")) ∧
  forwarded_value (launch o1 packages) gzserver "world_sdf_file" =
    Some (default "" (o1 !! "world_sdf_file")).
Proof.
  intros Hb Hs.
  rewrite !(launch_result _ _ _ Hb Hs).
  unfold forwarded_value, value_of; simpl.
  split; [intros Hd; by rewrite (Hd "world_sdf_string")|].
  split; [intros Hd; by rewrite (Hd "world_sdf_file")|].
  done.
Qed.

Lemma world_sources_independent_witness :
  differ_only_at "world_sdf_file" world_file_overrides ∅ ∧
  forwarded_value (launch world_file_overrides installed) gzserver
    "world_sdf_string" =
    forwarded_value (launch ∅ installed) gzserver "world_sdf_string" ∧
  forwarded_value (launch world_file_overrides installed) gzserver
    "world_sdf_string" = Some "".
Proof.
  assert (differ_only_at "world_sdf_file" world_file_overrides ∅) as Hd.
  { intros k Hk. unfold world_file_overrides.
    by rewrite lookup_singleton_ne, lookup_empty. }
  destruct (world_sources_independent world_file_overrides ∅ installed
              "/opt/ros/share/ros_gz_bridge" "/opt/ros/share/ros_gz_sim"
              eq_refl eq_refl) as (Hfile & _ & Hstring & _).
  split; [exact Hd|]. split; [exact (Hfile Hd) | exact Hstring].
Defined.

(** ** Declared before referenced (§3) *)

(** C7: the eight declared names are pairwise distinct, each is declared
    by exactly one action, and every Configuration Reference of an
    inclusion is to a name that an action earlier in the list declares. *)
Theorem names_unique_and_declared_before_use :
  declared_names (entities generate_launch_description) =
    ["config_file"; "container_name"; "namespace"; "use_composition";
     "use_respawn"; "log_level"; "world_sdf_file"; "world_sdf_string"] ∧
  NoDup (declared_names (entities generate_launch_description)) ∧
  (∀ name, name ∈ declared_names (entities generate_launch_description) →
     length (filter (λ a, declared_name a = Some name)
                    (entities generate_launch_description)) = 1) ∧
  (∀ i a n,
     entities generate_launch_description !! i = Some a →
     n ∈ action_references a →
     ∃ j d description,
       j < i ∧
       entities generate_launch_description !! j =
         Some (DeclareLaunchArgument n d description)).
Proof.
  split; [done|]. split; [by apply (bool_decide_unpack _)|]. split.
  - intros name Hin.
    change (declared_names (entities generate_launch_description))
      with ["config_file"; "container_name"; "namespace"; "use_composition";
            "use_respawn"; "log_level"; "world_sdf_file"; "world_sdf_string"]
      in Hin.
    repeat (apply elem_of_cons in Hin as [->|Hin]; [reflexivity|]).
    by apply elem_of_nil in Hin.
  - intros i a n Hi Hn.
    assert (declared_before [] (entities generate_launch_description) = true)
      as Hc by (vm_compute; reflexivity).
    destruct (declared_before_sound _ _ Hc i a n Hi Hn) as [Hs|Hj]; [|done].
    by apply elem_of_nil in Hs.
Qed.

Lemma names_unique_and_declared_before_use_witness :
  ∃ j d description,
    j < 9 ∧
    entities generate_launch_description !! j =
      Some (DeclareLaunchArgument "world_sdf_string" d description).
Proof.
  destruct names_unique_and_declared_before_use as (_ & _ & _ & Hbefore).
  apply (Hbefore 9 gzserver_inclusion "world_sdf_string"); [reflexivity|].
  apply list_elem_of_In. vm_compute. tauto.
Defined.

(** ** No validation (§4.1, §7) *)

(** C8: no value is validated.  The values the caller supplies never
    decide whether an invocation fails; with both packages installed it
    does not fail whatever strings are supplied, and every supplied
    string is forwarded as it is to the bindings that list its name; with
    no override at all the server is forwarded [""] for both
    [world_sdf_file] and [world_sdf_string]. *)
Theorem no_validation (overrides packages : gmap string string) :
  raised (launch overrides packages) = raised (launch ∅ packages) ∧
  ∀ bridge_share sim_share,
    packages !! "ros_gz_bridge" = Some bridge_share →
    packages !! "ros_gz_sim" = Some sim_share →
    raised (launch overrides packages) = false ∧
    length (inclusions_of (launch overrides packages)) = 2 ∧
    (∀ name v, name ∈ bridge_names → overrides !! name = Some v →
       forwarded_value (launch overrides packages) bridge name = Some v) ∧
    (∀ name v, name ∈ gzserver_names → overrides !! name = Some v →
       forwarded_value (launch overrides packages) gzserver name = Some v) ∧
    forwarded_value (launch ∅ packages) gzserver "world_sdf_file" = Some "" ∧
    forwarded_value (launch ∅ packages) gzserver "world_sdf_string" = Some "".
Proof.
  split; [apply raised_independent_of_overrides|].
  intros bridge_share sim_share Hb Hs. rewrite !(launch_result _ _ _ Hb Hs).
  split; [done|]. split; [done|].
  split; [|split; [|done]]; intros name v Hin Hv;
    unfold bridge_names, gzserver_names in Hin;
    repeat (apply elem_of_cons in Hin as [->|Hin];
            [unfold forwarded_value, value_of; simpl; by rewrite Hv|]);
    by apply elem_of_nil in Hin.
Qed.

Lemma no_validation_witness :
  raised (launch unchecked_overrides installed) = false ∧
  forwarded_value (launch unchecked_overrides installed) bridge
    "use_composition" = Some "maybe" ∧
  forwarded_value (launch unchecked_overrides installed) bridge
    "use_respawn" = Some "2" ∧
  forwarded_value (launch unchecked_overrides installed) gzserver
    "world_sdf_file" = Some "empty.sdf" ∧
  forwarded_value (launch unchecked_overrides installed) gzserver
    "world_sdf_string" = Some "<sdf/>".
Proof.
  destruct (no_validation unchecked_overrides installed) as [_ Hinstalled].
  destruct (Hinstalled "/opt/ros/share/ros_gz_bridge"
              "/opt/ros/share/ros_gz_sim" eq_refl eq_refl)
    as (Hok & _ & Hbridge & Hserver & _).
  split; [exact Hok|].
  split; [apply Hbridge; [apply list_elem_of_In; vm_compute; tauto | reflexivity]|].
  split; [apply Hbridge; [apply list_elem_of_In; vm_compute; tauto | reflexivity]|].
  split; apply Hserver;
    first [ reflexivity | apply list_elem_of_In; vm_compute; tauto ].
Defined.

(** ** Inclusion targets (§4.2, §4.3) *)

(** C9: each inclusion target is a package-share lookup joined with a
    relative path: package ros_gz_bridge and launch/ros_gz_bridge.launch.py
    for the bridge, package ros_gz_sim and launch/gz_server.launch.py for
    the server.  Neither is a literal path, and the location the runner
    includes is the share directory the lookup returns, joined with the
    relative path. *)
Theorem inclusion_targets
    (overrides packages : gmap string string) (bridge_share sim_share : string) :
  packages !! "ros_gz_bridge" = Some bridge_share →
  packages !! "ros_gz_sim" = Some sim_share →
  source_of <$> action_at 8 =
    Some (Some (PythonLaunchDescriptionSource
                  [Sub (PathJoinSubstitution
                          [Sub (FindPackageShare "ros_gz_bridge");
                           Str "launch"; Str "ros_gz_bridge.launch.py"])])) ∧
  source_of <$> action_at 9 =
    Some (Some (PythonLaunchDescriptionSource
                  [Sub (PathJoinSubstitution
                          [Sub (FindPackageShare "ros_gz_sim");
                           Str "launch"; Str "gz_server.launch.py"])])) ∧
  source_of <$> action_at 8 ≠ source_of <$> action_at 9 ∧
  (source_of <$> action_at 8) ≫= (λ s, literal_source <$> s) = Some None ∧
  (source_of <$> action_at 9) ≫= (λ s, literal_source <$> s) = Some None ∧
  location <$> inclusions_of (launch overrides packages) =
    [path_join [bridge_share; "launch"; "ros_gz_bridge.launch.py"];
     path_join [sim_share; "launch"; "gz_server.launch.py"]].
Proof.
  intros Hb Hs. rewrite (launch_result _ _ _ Hb Hs). by repeat split.
Qed.

Lemma inclusion_targets_witness :
  location <$> inclusions_of (launch ∅ installed) =
    ["/opt/ros/share/ros_gz_bridge/launch/ros_gz_bridge.launch.py";
     "/opt/ros/share/ros_gz_sim/launch/gz_server.launch.py"].
Proof.
  destruct (inclusion_targets ∅ installed
              "/opt/ros/share/ros_gz_bridge" "/opt/ros/share/ros_gz_sim"
              eq_refl eq_refl) as (_ & _ & _ & _ & _ & Hloc).
  exact Hloc.
Defined.

(** ** Text-substitution defaults (§4.1) *)

(** C10: the defaults of [world_sdf_file] and [world_sdf_string] are
    written as text-substitution objects and those of [config_file] and
    [namespace] as plain strings; the runner normalises both forms to the
    same substitution, and in every state each of the four resolves to the
    empty string. *)
Theorem world_defaults_resolve_like_literals :
  declared_default "world_sdf_file" (entities generate_launch_description) =
    Some (Sub (TextSubstitution "")) ∧
  declared_default "world_sdf_string" (entities generate_launch_description) =
    Some (Sub (TextSubstitution "")) ∧
  declared_default "config_file" (entities generate_launch_description) =
    Some (Str "") ∧
  declared_default "namespace" (entities generate_launch_description) =
    Some (Str "") ∧
  normalize_to_list_of_substitutions [Sub (TextSubstitution "")] =
    normalize_to_list_of_substitutions [Str ""] ∧
  ∀ context,
    effective_default context "world_sdf_file" = Some (Ok "") ∧
    effective_default context "world_sdf_string" = Some (Ok "") ∧
    effective_default context "config_file" = Some (Ok "") ∧
    effective_default context "namespace" = Some (Ok "").
Proof. by repeat split. Qed.

(** * Further properties of the launch file *)

(** ** Failures *)


(** ** The launch configurations after an invocation *)

Lemma default_values_undeclared (name : string) :
  name ∉ declared_names (entities generate_launch_description) →
  default_values !! name = None.
Proof.
  intros Hn.
  change default_values
    with (list_to_map
            [("config_file", ""); ("container_name", "ros_gz_container");
             ("namespace", ""); ("use_composition", "False");
             ("use_respawn", "False"); ("log_level", "info");
             ("world_sdf_file", ""); ("world_sdf_string", "")]
          : gmap string string).
  by apply not_elem_of_list_to_map_1.
Qed.

(** X2: an invocation never changes a value the caller supplied, sets
    every declared argument, and sets nothing else: forwarding the two
    bindings leaves the launch configurations as the declarations made
    them, since each binding gives a name the reference of that same
    name. *)
Theorem invocation_preserves_overrides
    (overrides packages : gmap string string) (bridge_share sim_share : string) :
  packages !! "ros_gz_bridge" = Some bridge_share →
  packages !! "ros_gz_sim" = Some sim_share →
  (∀ name v, overrides !! name = Some v →
     configuration_after (launch overrides packages) name = Some v) ∧
  (∀ name, name ∈ declared_names (entities generate_launch_description) →
     is_Some (configuration_after (launch overrides packages) name)) ∧
  (∀ name, name ∉ declared_names (entities generate_launch_description) →
     configuration_after (launch overrides packages) name = overrides !! name).
Proof.
  intros Hb Hs. rewrite (launch_result _ _ _ Hb Hs).
  cbn [configuration_after launch_configurations]. repeat split.
  - intros name v Hv. by rewrite lookup_union, Hv, union_Some_l.
  - intros name Hin. apply resolved_is_Some.
    change (declared_names (entities generate_launch_description))
      with ["config_file"; "container_name"; "namespace"; "use_composition";
            "use_respawn"; "log_level"; "world_sdf_file"; "world_sdf_string"]
      in Hin.
    repeat (apply elem_of_cons in Hin as [->|Hin]; [by eexists|]).
    by apply elem_of_nil in Hin.
  - intros name Hn.
    rewrite lookup_union, (default_values_undeclared _ Hn).
    by destruct (overrides !! name).
Qed.

Lemma invocation_preserves_overrides_witness :
  configuration_after (launch stray_overrides installed) "verbose" =
    Some "true" ∧
  is_Some (configuration_after (launch stray_overrides installed) "log_level").
Proof.
  destruct (invocation_preserves_overrides stray_overrides installed
              "/opt/ros/share/ros_gz_bridge" "/opt/ros/share/ros_gz_sim"
              eq_refl eq_refl) as (Hkept & Hset & _).
  split; [apply Hkept; reflexivity|].
  apply Hset. apply list_elem_of_In. vm_compute. tauto.
Defined.

(** X3: supplying defaults explicitly changes nothing: an invocation
    whose overrides are completed by any part of the table of defaults
    has the same outcome, failure included, as the invocation without
    them. *)
Theorem explicit_defaults_change_nothing
    (overrides supplied packages : gmap string string) :
  supplied ⊆ default_values →
  launch (overrides ∪ supplied) packages = launch overrides packages.
Proof.
  intros Hsub. rewrite !launch_declarations.
  by rewrite <- (assoc_L (∪)), (map_subseteq_union supplied).
Qed.

Lemma explicit_defaults_change_nothing_witness :
  launch (robot1_overrides ∪ explicit_log_level) installed =
    launch robot1_overrides installed.
Proof.
  apply (explicit_defaults_change_nothing robot1_overrides explicit_log_level).
  apply map_singleton_subseteq_l. reflexivity.
Defined.

(** X4: the inclusions an invocation requests depend on the overrides
    of the eight declared names only: two invocations whose overrides
    agree on the declared names request the same inclusions, whatever
    else the caller supplies. *)
Theorem undeclared_overrides_ignored (o1 o2 packages : gmap string string) :
  (∀ name, name ∈ declared_names (entities generate_launch_description) →
     o1 !! name = o2 !! name) →
  inclusions_of (launch o1 packages) = inclusions_of (launch o2 packages).
Proof.
  intros Hagree.
  destruct (packages !! "ros_gz_bridge") as [bs|] eqn:Hb.
  - destruct (packages !! "ros_gz_sim") as [ss|] eqn:Hs.
    + rewrite !(launch_result _ _ _ Hb Hs). unfold value_of. simpl.
      by rewrite !Hagree by (apply list_elem_of_In; vm_compute; tauto).
    + by rewrite !(launch_gzserver_missing _ _ _ Hb Hs).
  - by rewrite !(launch_bridge_missing _ _ Hb).
Qed.

Lemma undeclared_overrides_ignored_witness :
  inclusions_of (launch stray_overrides installed) =
    inclusions_of (launch ∅ installed).
Proof.
  apply (undeclared_overrides_ignored stray_overrides ∅ installed).
  intros name Hin. unfold stray_overrides.
  rewrite lookup_empty. apply lookup_singleton_ne.
  intros <-. revert Hin.
  change ("verbose" ∉ declared_names (entities generate_launch_description)).
  by apply (bool_decide_unpack _).
Defined.

(** ** Where the included files are located *)

Lemma endswith_sep_cons (c : ascii) (r : string) :
  r ≠ "" → endswith_sep (String c r) = endswith_sep r.
Proof. by destruct r. Qed.

Lemma append_nonempty (s t : string) : t ≠ "" → s +:+ t ≠ "".
Proof. destruct s; [done|]. intros _. discriminate. Qed.

(** Whether a path ends with the separator is decided by its last
    component. *)
Lemma endswith_sep_append (s t : string) :
  t ≠ "" → endswith_sep (s +:+ t) = endswith_sep t.
Proof.
  intros Ht. induction s as [|c s IH]; [done|].
  change (endswith_sep (String c (s +:+ t)) = endswith_sep t).
  rewrite endswith_sep_cons; [done|]. by apply append_nonempty.
Qed.

Lemma append_assoc (s t u : string) : (s +:+ t) +:+ u = s +:+ (t +:+ u).
Proof.
  induction s as [|c s IH]; [done|].
  change (String c ((s +:+ t) +:+ u) = String c (s +:+ (t +:+ u))).
  by rewrite IH.
Qed.

(** A component that does not start with the separator is appended
    under the path built so far. *)
Lemma join_component_relative (path b : string) :
  startswith_sep b = false → join_component path b = under_share path b.
Proof. intros Hb. unfold join_component, under_share. by rewrite Hb. Qed.

(** Joining a share directory with [launch] and a relative file name
    never restarts the path: the result lies under the share directory. *)
Lemma path_join_under_share (share file : string) :
  startswith_sep file = false →
  path_join [share; "launch"; file] = under_share share ("launch/" +:+ file).
Proof.
  intros Hfile. unfold path_join. cbn [foldl].
  rewrite (join_component_relative share "launch") by reflexivity.
  rewrite join_component_relative by done.
  assert (∀ p, bool_decide (p +:+ "launch" = "") || endswith_sep (p +:+ "launch")
               = false) as Hlaunch.
  { intros p. rewrite endswith_sep_append by done.
    rewrite bool_decide_eq_false_2; [done|]. by apply append_nonempty. }
  unfold under_share.
  destruct (bool_decide (share = "") || endswith_sep share).
  - rewrite Hlaunch. by rewrite append_assoc.
  - rewrite <- (append_assoc share "/" "launch"), Hlaunch.
    by rewrite !append_assoc.
Qed.

(** X5: the file each inclusion loads lies under the share directory the
    package lookup returns, whatever that directory is: the relative
    components [launch] and the file name never restart the path, and
    exactly one separator joins them to the directory (none is added to an
    empty directory or to one that ends with a separator). *)
Theorem included_files_under_share
    (overrides packages : gmap string string) (bridge_share sim_share : string) :
  packages !! "ros_gz_bridge" = Some bridge_share →
  packages !! "ros_gz_sim" = Some sim_share →
  location <$> inclusions_of (launch overrides packages) =
    [under_share bridge_share "launch/ros_gz_bridge.launch.py";
     under_share sim_share "launch/gz_server.launch.py"].
Proof.
  intros Hb Hs. rewrite (launch_result _ _ _ Hb Hs).
  cbn [inclusions_of fmap list_fmap location].
  by rewrite !path_join_under_share.
Qed.

Lemma included_files_under_share_witness :
  location <$> inclusions_of (launch ∅ installed) =
    ["/opt/ros/share/ros_gz_bridge/launch/ros_gz_bridge.launch.py";
     "/opt/ros/share/ros_gz_sim/launch/gz_server.launch.py"].
Proof.
  exact (included_files_under_share ∅ installed
           "/opt/ros/share/ros_gz_bridge" "/opt/ros/share/ros_gz_sim"
           eq_refl eq_refl).
Defined.

(** ** Declared and forwarded names *)

(** X6: the launch file declares exactly the arguments it forwards: a
    name is declared if and only if the bridge binding or the server
    binding forwards it, so no declared argument is dropped, and
    [use_composition] is the only name both bindings forward. *)
Theorem declared_iff_forwarded (name : string) :
  (name ∈ declared_names (entities generate_launch_description) ↔
     is_Some (reference_at 8 name) ∨ is_Some (reference_at 9 name)) ∧
  (is_Some (reference_at 8 name) ∧ is_Some (reference_at 9 name) ↔
     name = "use_composition").
Proof.
  change (reference_at 8 name)
    with (binding name (launch_arguments_of bridge_inclusion)).
  change (reference_at 9 name)
    with (binding name (launch_arguments_of gzserver_inclusion)).
  rewrite !binding_is_Some.
  change (declared_names (entities generate_launch_description))
    with ["config_file"; "container_name"; "namespace"; "use_composition";
          "use_respawn"; "log_level"; "world_sdf_file"; "world_sdf_string"].
  change ((launch_arguments_of bridge_inclusion).*1) with bridge_names.
  change ((launch_arguments_of gzserver_inclusion).*1) with gzserver_names.
  unfold bridge_names, gzserver_names.
  rewrite !elem_of_cons, !elem_of_nil. split.
  - tauto.
  - split.
    + intros [Hbridge Hserver].
      destruct Hserver as [->|[->|[->|[]]]]; [| |done];
        repeat (destruct Hbridge as [Hbridge|Hbridge];
                [discriminate Hbridge|]); done.
    + intros ->. tauto.
Qed.
